(** * boxmot/appearance/reid_auto_backend.py : the ReID backend selector

    A shallow embedding of class [ReidAutoBackend] and the properties of its
    dispatch logic.  Python is dynamically typed and most of what this file
    does (or fails to do) is decided by name and attribute lookups at run
    time, so the embedding keeps them explicit:

    - values are a small universe [value] of the Python objects the file
      handles (str, bool, list, tuple, dict, pathlib.Path, the six imported
      backend classes, and objects defined outside the file);
    - a method is a computation in the monad [M]: it threads the selector's
      instance dictionary, the log written by [LOGGER.error] and the state of
      the outside world, and it ends either with a value or with a raised
      exception ([exit()] raises [SystemExit]);
    - a free name of a function body is read from the module namespace
      ([load_global]), an attribute of [self] from the instance dictionary
      and then from the class ([getattr_self]).

    Paths are POSIX paths over ASCII text; [suffix] is the one of CPython's
    [pathlib.PurePath] (3.8 to 3.13). *)

From Stdlib Require Import String Ascii ZArith Lia Bool.
From stdpp Require Import base option list strings gmap.

Set Warnings "-register-all".

Local Open Scope string_scope.
Local Open Scope Z_scope.

(** ** str and pathlib *)

(** [str.lower()] on ASCII text: A..Z are mapped to a..z. *)
Definition lower_ascii (c : ascii) : ascii :=
  let n := nat_of_ascii c in
  if ((65 <=? n)%nat && (n <=? 90)%nat)%bool then ascii_of_nat (n + 32) else c.

Fixpoint lower (s : string) : string :=
  match s with
  | EmptyString => EmptyString
  | String c s' => String (lower_ascii c) (lower s')
  end.

(** [s.split(sep)] for a one-character separator. *)
Fixpoint split (sep : ascii) (s : string) : list string :=
  match s with
  | EmptyString => [EmptyString]
  | String c s' =>
      if Ascii.eqb c sep then EmptyString :: split sep s'
      else match split sep s' with
           | [] => [String c EmptyString]
           | x :: xs => String c x :: xs
           end
  end.

(** [s.rfind(c)]: the index of the last occurrence of [c], or -1. *)
Fixpoint rfind (c : ascii) (s : string) : Z :=
  match s with
  | EmptyString => -1
  | String a s' =>
      let r := rfind c s' in
      if 0 <=? r then r + 1 else if Ascii.eqb a c then 0 else -1
  end.

(** [len(s)] and the slice [s[i:]] for [0 <= i]. *)
Definition len (s : string) : Z := Z.of_nat (String.length s).

Fixpoint drop_str (n : nat) (s : string) : string :=
  match n, s with
  | O, _ => s
  | S n', EmptyString => EmptyString
  | S n', String _ s' => drop_str n' s'
  end.

Definition slice_from (i : Z) (s : string) : string := drop_str (Z.to_nat i) s.

(** [PurePosixPath(p).name]: the last component of [p], where empty
    components and ["."] components are dropped by the path parser; [""] when
    nothing is left. *)
Definition is_component (x : string) : bool :=
  negb (String.eqb x "") && negb (String.eqb x ".").

Definition path_name (p : string) : string :=
  List.last (List.filter is_component (split "/" p)) "".

(** [PurePath.suffix]:
      i = name.rfind('.')
      if 0 < i < len(name) - 1: return name[i:]
      else: return ''                                                    *)
Definition path_suffix (p : string) : string :=
  let name := path_name p in
  let i := rfind "." name in
  if (0 <? i) && (i <? len name - 1) then slice_from i name else "".

(** ** Values, exceptions and the log *)

(** The six backend classes imported at the top of the module. *)
Inductive backend_class :=
| PyTorchBackend
| TorchscriptBackend
| ONNXBackend
| TensorRTBackend
| OpenVinoBackend
| TFLiteBackend.

(** The Python objects the file handles.  [VExt] is an object defined outside
    the file (a device, a tensor, a backend instance, a test stub, an imported
    module), known by a name; its behaviour belongs to the outside world.
    [VMethod] is a method of [ReidAutoBackend] bound to the selector, as an
    attribute read finds it on the class. *)
Inductive value :=
| VNone
| VBool (b : bool)
| VStr (s : string)
| VPath (p : string)
| VList (l : list value)
| VTuple (l : list value)
| VDict (d : list (string * value))
| VClass (c : backend_class)
| VMethod (name : string)
| VExt (name : string).

Inductive exn :=
| NameError (name : string)
| AttributeError (type_name attr : string)
| TypeError (what : string)
| ValueError (what : string)
| IndexError
| SystemExit
| Failure (what : string).

Inductive outcome (A : Type) :=
| Ok (a : A)
| Raised (e : exn).
Arguments Ok {A} a.
Arguments Raised {A} e.

(** An f-string is kept as its parts: literal text and formatted values. *)
Inductive fpart :=
| Lit (s : string)
| Fmt (v : value).

(** One record of the shared logger; the file only ever calls
    [LOGGER.error]. *)
Inductive log_entry :=
| LogError (msg : list fpart).

Definition type_name (v : value) : string :=
  match v with
  | VNone => "NoneType"
  | VBool _ => "bool"
  | VStr _ => "str"
  | VPath _ => "PosixPath"
  | VList _ => "list"
  | VTuple _ => "tuple"
  | VDict _ => "dict"
  | VClass _ => "type"
  | VMethod _ => "method"
  | VExt _ => "object"
  end.

(** The type an [AttributeError] names: the one of the object, except that a
    bound method hands the attribute read over to its function. *)
Definition attr_type_name (v : value) : string :=
  match v with
  | VMethod _ => "function"
  | _ => type_name v
  end.

(** [isinstance(v, str)], [isinstance(v, Path)], [isinstance(v, list)]. *)
Definition is_str (v : value) : bool :=
  match v with VStr _ => true | _ => false end.
Definition is_path (v : value) : bool :=
  match v with VPath _ => true | _ => false end.
Definition is_list (v : value) : bool :=
  match v with VList _ => true | _ => false end.

(** Truth value of an object in an [if]. *)
Definition truthy (v : value) : bool :=
  match v with
  | VNone => false
  | VBool b => b
  | VStr s => negb (String.eqb s "")
  | VList l | VTuple l => match l with [] => false | _ => true end
  | VDict d => match d with [] => false | _ => true end
  | VPath _ | VClass _ | VMethod _ | VExt _ => true
  end.

(** [x == s] and [x in l] for a str [x]: a str is equal to a str with the
    same text and to nothing else the file compares it with. *)
Definition str_eq (x : value) (s : string) : bool :=
  match x with VStr t => String.eqb t s | _ => false end.

Definition str_in (s : string) (l : list value) : bool :=
  existsb (fun v => str_eq v s) l.

(** [x in l] for a list [l] of objects and for a list of str literals; the
    left operand is a str wherever the file evaluates a membership test. *)
Definition contains (l : list value) (x : value) : bool :=
  match x with VStr s => str_in s l | _ => false end.

Definition among (x : value) (l : list string) : bool :=
  existsb (str_eq x) l.

(** [d[k] = v] on a dict that already has the key [k]: the position of the
    key is kept; a new key goes last. *)
Fixpoint dict_set (d : list (string * value)) (k : string) (v : value)
  : list (string * value) :=
  match d with
  | [] => [(k, v)]
  | (k', v') :: d' =>
      if String.eqb k' k then (k, v) :: d' else (k', v') :: dict_set d' k v
  end.

(** The names the module binds at top level (its import statements and the
    class statement).  Neither the module nor Python's builtins bind any
    other name the file reads. *)
Definition module_globals : gmap string value :=
  list_to_map
    [ ("torch", VExt "torch");
      ("Path", VExt "pathlib.Path");
      ("Union", VExt "typing.Union");
      ("Tuple", VExt "typing.Tuple");
      ("WEIGHTS", VExt "boxmot.utils.WEIGHTS");
      ("LOGGER", VExt "boxmot.utils.logger");
      ("export_formats", VExt "boxmot.appearance.export_formats");
      ("ONNXBackend", VClass ONNXBackend);
      ("OpenVinoBackend", VClass OpenVinoBackend);
      ("PyTorchBackend", VClass PyTorchBackend);
      ("TensorRTBackend", VClass TensorRTBackend);
      ("TFLiteBackend", VClass TFLiteBackend);
      ("TorchscriptBackend", VClass TorchscriptBackend);
      ("BaseModelBackend", VExt "boxmot.appearance.backends.base_backend.BaseModelBackend");
      ("ReidAutoBackend", VExt "ReidAutoBackend") ].

(** The builtins the file uses. *)
Definition builtins : gmap string value :=
  list_to_map
    [ ("isinstance", VExt "builtins.isinstance");
      ("list", VExt "builtins.list");
      ("super", VExt "builtins.super");
      ("exit", VExt "builtins.exit");
      ("str", VExt "builtins.str") ].

(** The attributes of class [ReidAutoBackend]: its five methods. *)
Definition class_attrs : list string :=
  ["__init__"; "get_backend"; "forward"; "check_suffix"; "identify_framework"].

(** ** The monad of method bodies *)

Section Selector.

(** The state of everything outside the file, and the behaviour of the
    objects that live there: [ext_call obj name args] is the call
    [obj.name(args...)] on an outside object ([__call__] for calling it,
    [__getattribute__] for reading an attribute).  Outside code owns its own
    state and has no handle on the selector. *)
Context {World : Type}.
Variable ext_call : value -> string -> list value -> World -> outcome value * World.

(** [self_dict] is the instance dictionary of the selector ([self.__dict__]),
    [log] is what the [LOGGER.error] calls of this file have written, oldest
    first.  What outside code sends to the shared logger is part of the
    outside world and is not recorded in [log]. *)
Record state := State {
  self_dict : gmap string value;
  log : list log_entry;
  world : World
}.

Definition M (A : Type) : Type := state -> outcome A * state.

#[global] Instance M_ret : MRet M := fun A a s => (Ok a, s).

#[global] Instance M_bind : MBind M := fun A B f m s =>
  match m s with
  | (Ok a, s') => f a s'
  | (Raised e, s') => (Raised e, s')
  end.

Definition raise {A} (e : exn) : M A := fun s => (Raised e, s).

(** [exit()]: the site builtin raises [SystemExit], which ends the process
    unless a caller catches it. *)
Definition exit {A} : M A := raise SystemExit.

(** Modelled from the spec: [LOGGER] is the shared logger of [boxmot.utils],
    which is defined outside this file.  [LOGGER.error(msg)] emits one error
    message and returns; the messages are kept in the order they were
    emitted. *)
Definition LOGGER_error (msg : list fpart) : M unit := fun s =>
  (Ok tt, State (self_dict s) (log s ++ [LogError msg]) (world s)).

(** A call into outside code. *)
Definition lift_ext (c : World -> outcome value * World) : M value := fun s =>
  let '(r, w) := c (world s) in (r, State (self_dict s) (log s) w).

(** Reading a free name of a function body: module namespace, then
    builtins, then [NameError]. *)
Definition load_global (name : string) : M value :=
  match module_globals !! name with
  | Some v => mret v
  | None =>
      match builtins !! name with
      | Some v => mret v
      | None => raise (NameError name)
      end
  end.

(** [self.name]: the instance dictionary, then the class. *)
Definition getattr_self (name : string) : M value := fun s =>
  match self_dict s !! name with
  | Some v => (Ok v, s)
  | None =>
      if bool_decide (name ∈ class_attrs) then (Ok (VMethod name), s)
      else (Raised (AttributeError "ReidAutoBackend" name), s)
  end.

(** [self.name = v] *)
Definition setattr_self (name : string) (v : value) : M unit := fun s =>
  (Ok tt, State (<[name := v]> (self_dict s)) (log s) (world s)).

(** [obj.name(args...)] for a method that only outside objects have. *)
Definition call_method (obj : value) (name : string) (args : list value) : M value :=
  match obj with
  | VExt _ | VClass _ => lift_ext (ext_call obj name args)
  | _ => raise (AttributeError (attr_type_name obj) name)
  end.

(** [obj(args...)]: the file calls nothing but the backend classes this
    way; a bound method of the selector as callee is outside the model. *)
Definition call (obj : value) (args : list value) : M value :=
  match obj with
  | VExt _ | VClass _ => lift_ext (ext_call obj "__call__" args)
  | VMethod name => raise (Failure ("call of self." ++ name ++ " through a variable"))
  | _ => raise (TypeError (type_name obj ++ " object is not callable"))
  end.

(** [obj.suffix] *)
Definition get_suffix (obj : value) : M value :=
  match obj with
  | VPath p => mret (VStr (path_suffix p))
  | VExt _ => lift_ext (ext_call obj "__getattribute__" [VStr "suffix"])
  | _ => raise (AttributeError (attr_type_name obj) "suffix")
  end.

(** [obj.lower()] *)
Definition str_lower (obj : value) : M value :=
  match obj with
  | VStr s => mret (VStr (lower s))
  | _ => call_method obj "lower" []
  end.

(** [obj.items()] *)
Definition items (obj : value) : M value :=
  match obj with
  | VDict d => mret (VList (map (fun kv => VTuple [VStr (fst kv); snd kv]) d))
  | _ => call_method obj "items" []
  end.

(** [Path(f)]: a str, a Path, or an outside object that is path-like. *)
Definition Path (f : value) : M value :=
  match f with
  | VStr s => mret (VPath s)
  | VPath p => mret (VPath p)
  | VExt _ =>
      r ← lift_ext (ext_call f "__fspath__" []);
      match r with
      | VStr s => mret (VPath s)
      | _ => raise (TypeError "expected __fspath__() to return str")
      end
  | _ => raise (TypeError ("expected str, bytes or os.PathLike object, not " ++ type_name f))
  end.

(** [list(obj)] and the elements a [for] loop or an unpacking visits. *)
Definition elements (obj : value) : M (list value) :=
  match obj with
  | VList l | VTuple l => mret l
  | VDict d => mret (map (fun kv => VStr (fst kv)) d)
  | VStr s => mret (map (fun c => VStr (String c "")) (list_ascii_of_string s))
  | VExt _ =>
      r ← lift_ext (ext_call obj "__iter__" []);
      match r with
      | VList l | VTuple l => mret l
      | _ => raise (TypeError "iter() returned non-iterator")
      end
  | _ => raise (TypeError (type_name obj ++ " object is not iterable"))
  end.

(** [obj[0]]; the file subscripts nothing but a list. *)
Definition getitem0 (obj : value) : M value :=
  match obj with
  | VList (x :: _) | VTuple (x :: _) => mret x
  | VList [] | VTuple [] => raise IndexError
  | _ => raise (TypeError (type_name obj ++ " object is not subscriptable"))
  end.

(** The target [a, b] of a [for] statement. *)
Definition unpack2 (obj : value) : M (value * value) :=
  l ← elements obj;
  match l with
  | [a; b] => mret (a, b)
  | _ => raise (ValueError "cannot unpack into 2 names")
  end.

(** A [for] loop whose body may [return]: the body yields [Some v] to return
    [v] from the function and [None] to go on with the next element. *)
Fixpoint for_each {A B} (xs : list A) (body : A -> M (option B)) : M (option B) :=
  match xs with
  | [] => mret None
  | x :: xs' =>
      r ← body x;
      match r with
      | Some v => mret (Some v)
      | None => for_each xs' body
      end
  end.

(** ** The methods of [ReidAutoBackend] *)

(** [identify_framework(self, path)] *)
Definition identify_framework (path : value) : M value :=
  (* file_extension = file_path.suffix.lower() *)
  file_path ← load_global "file_path";
  sfx ← get_suffix file_path;
  file_extension ← str_lower sfx;
  let framework_presence :=
    [ ("pytorch", VBool false); ("tensorrt", VBool false); ("onnx", VBool false);
      ("torchscript", VBool false); ("openvino", VBool false);
      ("tflite", VBool false) ] in
  framework_presence ←
    (if among file_extension [".pt"; ".pth"] then
       mret (dict_set framework_presence "pytorch" (VBool true))
     else if str_eq file_extension ".onnx" then
       mret (dict_set framework_presence "onnx" (VBool true))
     else if str_eq file_extension ".torchscript" then
       mret (dict_set framework_presence "torchscript" (VBool true))
     else if str_eq file_extension ".xml" then
       mret (dict_set framework_presence "openvino" (VBool true))
     else if among file_extension [".plan"; ".engine"] then
       mret (dict_set framework_presence "tensorrt" (VBool true))
     else
       _ ← LOGGER_error [Lit "This model framework is not supported yet!"];
       exit);
  (* for framework, is_present in framework_dict.items(): *)
  framework_dict ← load_global "framework_dict";
  its ← items framework_dict;
  l ← elements its;
  r ← for_each l (fun item =>
         '(framework, is_present) ← unpack2 item;
         if truthy is_present then mret (Some framework)
         else
           _ ← LOGGER_error [Lit "Framework now found"];
           exit);
  match r with
  | Some framework => mret framework
  | None => mret VNone
  end.

(** [__init__(self, weights, device, half)].  [self.identify_framework] is
    looked up on the object when the constructor runs; [identify] is the
    method the lookup finds: the one above for a plain [ReidAutoBackend], an
    override for a subclass.  [super().__init__()] is [object.__init__] and
    does nothing. *)
Definition init_body (identify : value -> M value) (weights device half : value)
  : M value :=
  w ← (if is_list weights then getitem0 weights else mret weights);
  framework ← identify w;
  _ ← setattr_self "framework" framework;
  _ ← setattr_self "weights" weights;
  _ ← setattr_self "device" device;
  _ ← setattr_self "half" half;
  mret VNone.

Definition __init__ (weights device half : value) : M value :=
  init_body identify_framework weights device half.

(** [get_backend(self)] *)
Definition get_backend : M value :=
  pt ← getattr_self "pt";
  c1 ← load_global "PyTorchBackend";
  torchscript ← getattr_self "torchscript";
  c2 ← load_global "TorchscriptBackend";
  onnx ← getattr_self "onnx";
  c3 ← load_global "ONNXBackend";
  tensorrt ← getattr_self "tensorrt";
  c4 ← load_global "TensorRTBackend";
  openvino ← getattr_self "openvino";
  c5 ← load_global "OpenVinoBackend";
  tflite ← getattr_self "tflite";
  c6 ← load_global "TFLiteBackend";
  let backend_map :=
    VList [ VTuple [pt; c1]; VTuple [torchscript; c2]; VTuple [onnx; c3];
            VTuple [tensorrt; c4]; VTuple [openvino; c5]; VTuple [tflite; c6] ] in
  (* for condition, backend_class in backend_map.items(): *)
  its ← items backend_map;
  l ← elements its;
  r ← for_each l (fun item =>
         '(condition, backend_class) ← unpack2 item;
         if truthy condition then
           weights ← getattr_self "weights";
           device ← getattr_self "device";
           half ← getattr_self "half";
           b ← call backend_class [weights; device; half];
           mret (Some b)
         else mret None);
  match r with
  | Some b => mret b
  | None =>
      _ ← LOGGER_error [Lit "This model framework is not supported yet!"];
      exit
  end.

(** [forward(self, im_batch)] *)
Definition forward (im_batch : value) : M value :=
  backend ← getattr_self "backend";
  im_batch ← call_method backend "preprocess_input" [im_batch];
  backend ← getattr_self "backend";
  call_method backend "get_features" [im_batch].

(** [check_suffix(self, file, suffix, msg)]; [check_body] is the body of its
    [for] loop, for the file [f]. *)
Definition check_body (suffix : list value) (f : value) : M (option value) :=
  p ← Path f;
  sfx ← get_suffix p;
  file_suffix ← str_lower sfx;
  if truthy file_suffix && negb (contains suffix file_suffix) then
    _ ← LOGGER_error
          [ Lit "File "; Fmt f;
            Lit " does not have an acceptable suffix. Expected: ";
            Fmt (VList suffix) ];
    mret None
  else mret None.

Definition check_suffix (file suffix msg : value) : M value :=
  suffix ← (if is_str suffix then mret [suffix] else elements suffix);
  files ← (if is_str file || is_path file then mret [file] else elements file);
  _ ← for_each files (check_body suffix);
  mret VNone.

End Selector.

Arguments State {World} _ _ _.
Arguments M : clear implicits.

(** ** Well-typed arguments

    The signature of [check_suffix] takes a str, a Path or a collection of
    them as [file], and a str or a tuple of str as [suffix]. *)

Inductive pathlike :=
| AsStr (s : string)
| AsPath (p : string).

Definition text (f : pathlike) : string :=
  match f with AsStr s => s | AsPath p => p end.

Definition to_value (f : pathlike) : value :=
  match f with AsStr s => VStr s | AsPath p => VPath p end.

Inductive file_arg :=
| OneFile (f : pathlike)
| Files (fs : list pathlike).

Inductive suffix_arg :=
| OneSuffix (a : string)
| Suffixes (acc : list string).

Definition files_of (file : file_arg) : list pathlike :=
  match file with OneFile f => [f] | Files fs => fs end.

Definition accepted_of (suffix : suffix_arg) : list string :=
  match suffix with OneSuffix a => [a] | Suffixes acc => acc end.

Definition file_value (file : file_arg) : value :=
  match file with
  | OneFile f => to_value f
  | Files fs => VList (map to_value fs)
  end.

Definition suffix_value (suffix : suffix_arg) : value :=
  match suffix with
  | OneSuffix a => VStr a
  | Suffixes acc => VTuple (map VStr acc)
  end.

(** The suffix [check_suffix] compares: the one of the path, lower-cased. *)
Definition file_suffix (f : pathlike) : string := lower (path_suffix (text f)).

(** A file has a suffix, and it is none of the accepted ones. *)
Definition mismatch (acc : list string) (f : pathlike) : Prop :=
  file_suffix f <> "" /\ file_suffix f ∉ acc.

#[global] Instance mismatch_dec acc f : Decision (mismatch acc f).
Proof. unfold mismatch. apply _. Defined.

(** The record [check_suffix] writes for a file [f]. *)
Definition suffix_error (acc : list string) (f : pathlike) : log_entry :=
  LogError [ Lit "File "; Fmt (to_value f);
             Lit " does not have an acceptable suffix. Expected: ";
             Fmt (VList (map VStr acc)) ].

(** The selector as the four assignments of the constructor leave it, had
    [identify_framework] returned [fw]. *)
Definition constructed {World} (fw : string) (weights device half : value)
    (wd : World) : state :=
  State (<["half" := half]> (<["device" := device]>
          (<["weights" := weights]> (<["framework" := VStr fw]> ∅))))
        [] wd.

(** A test double for the outside world: it keeps the trace of the calls it
    received; [preprocess_input] and [get_features] of an outside object wrap
    the name of their argument, every other call fails. *)
Definition stub_call (obj : value) (name : string) (args : list value)
    (trace : list string) : outcome value * list string :=
  match obj, args with
  | VExt _, [VExt x] =>
      if String.eqb name "preprocess_input" then
        (Ok (VExt ("pre(" ++ x ++ ")")), (trace ++ [name])%list)
      else if String.eqb name "get_features" then
        (Ok (VExt ("feat(" ++ x ++ ")")), (trace ++ [name])%list)
      else (Raised (Failure name), (trace ++ [name])%list)
  | _, _ => (Raised (Failure name), (trace ++ [name])%list)
  end.

(** Three selectors in that world: a fresh object, one as the constructor
    would leave it for a PyTorch weights file, and the latter after its
    caller has assigned an outside object to [backend]. *)
Definition fresh : @state (list string) := State ∅ [] [].

Definition unbound_selector : @state (list string) :=
  constructed "pytorch" (VPath "osnet_x0_25_msmt17.pt") (VExt "cpu") (VBool false) [].

Definition bound_selector : @state (list string) :=
  State (<["backend" := VExt "stub"]> (self_dict unbound_selector)) [] [].

(** A computation that leaves the attributes of the selector as it found
    them, whether it returns or raises. *)
Definition keeps {World A} (m : M World A) : Prop :=
  forall s, self_dict (snd (m s)) = self_dict s.

(** [check_suffix] has logged something for the single file [f]. *)
Definition flags {World}
    (ext_call : value -> string -> list value -> World -> outcome value * World)
    (f : pathlike) (suffix : suffix_arg) (msg : value) (s : state) : Prop :=
  log (snd (check_suffix ext_call (to_value f) (suffix_value suffix) msg s)) <> log s.

(** The attributes [get_backend] reads for the conditions of its table, in
    the order it reads them, and whether the selector lacks one. *)
Definition backend_conditions : list string :=
  ["pt"; "torchscript"; "onnx"; "tensorrt"; "openvino"; "tflite"].

Definition unbound {World} (s : @state World) (name : string) : bool :=
  match self_dict s !! name with None => true | Some _ => false end.

(** An object that can have methods of its own: one defined outside the
    file, or an imported class. *)
Definition is_object (v : value) : bool :=
  match v with VExt _ | VClass _ => true | _ => false end.

(** What [Path(f)] accepts: a str, a Path, or an outside object (which may
    be path-like). *)
Definition path_like (v : value) : bool :=
  match v with VStr _ | VPath _ | VExt _ => true | _ => false end.

(** A computation that neither reads nor writes the attributes of the
    selector and does not read the log: from a given outside world it has one
    result, one list of records it appends to the log, and one outside world
    it leaves. *)
Definition static {World A} (m : M World A) : Prop :=
  forall w, exists r l w',
    forall d lg, m (State d lg w) = (r, State d (lg ++ l)%list w').

(** [c in s] for a character [c]. *)
Fixpoint has_char (c : ascii) (s : string) : bool :=
  match s with
  | EmptyString => false
  | String a s' => Ascii.eqb a c || has_char c s'
  end.

(** The texts a lower-cased [Path.suffix] can be, when not empty: a dot, then
    at least one character, none of them a dot, a slash or an upper-case
    letter. *)
Definition suffix_shaped (a : string) : Prop :=
  exists rest, a = String "." rest /\ rest <> ""
               /\ has_char "." rest = false /\ has_char "/" rest = false
               /\ lower a = a.

(** A resolution of [self.identify_framework] that logs and leaves through
    [exit()], as the method of the class is written to do for an extension
    it does not know. *)
Definition identify_exits {World} (path : value) : M World value :=
  _ ← LOGGER_error [Lit "This model framework is not supported yet!"];
  exit.

(** ** Facts about str and pathlib *)

Example suffix_pt : path_suffix "weights/osnet_x0_25_msmt17.pt" = ".pt".
Proof. reflexivity. Qed.
Example suffix_upper : lower (path_suffix "MODEL.ONNX") = ".onnx".
Proof. reflexivity. Qed.
Example suffix_none : path_suffix "model" = "".
Proof. reflexivity. Qed.
Example suffix_hidden : path_suffix "dir.d/.hidden" = "".
Proof. reflexivity. Qed.
Example suffix_trailing_dot : path_suffix "model." = "".
Proof. reflexivity. Qed.
Example suffix_last_only : path_suffix "a.tar.gz" = ".gz".
Proof. reflexivity. Qed.
Example suffix_trailing_slash : path_suffix "a/b.engine/" = ".engine".
Proof. reflexivity. Qed.

Lemma lower_ascii_eqb_slash c : Ascii.eqb (lower_ascii c) "/" = Ascii.eqb c "/".
Proof. destruct c as [[] [] [] [] [] [] [] []]; reflexivity. Qed.

Lemma lower_ascii_eqb_dot c : Ascii.eqb (lower_ascii c) "." = Ascii.eqb c ".".
Proof. destruct c as [[] [] [] [] [] [] [] []]; reflexivity. Qed.

Lemma lower_ascii_idem c : lower_ascii (lower_ascii c) = lower_ascii c.
Proof. destruct c as [[] [] [] [] [] [] [] []]; reflexivity. Qed.

Lemma lower_idem s : lower (lower s) = lower s.
Proof. induction s as [|c s IH]; simpl; [reflexivity|]. by rewrite lower_ascii_idem, IH. Qed.

Lemma lower_length s : String.length (lower s) = String.length s.
Proof. induction s as [|c s IH]; simpl; congruence. Qed.

Lemma lower_empty s : lower s = "" <-> s = "".
Proof. destruct s; simpl; split; congruence. Qed.

Lemma lower_split_slash s : split "/" (lower s) = map lower (split "/" s).
Proof.
  induction s as [|c s IH]; simpl; [reflexivity|].
  rewrite lower_ascii_eqb_slash, IH.
  destruct (Ascii.eqb c "/"); [reflexivity|].
  destruct (split "/" s); reflexivity.
Qed.

Lemma lower_rfind_dot s : rfind "." (lower s) = rfind "." s.
Proof.
  induction s as [|c s IH]; simpl; [reflexivity|].
  by rewrite IH, lower_ascii_eqb_dot.
Qed.

Lemma lower_drop_str n s : drop_str n (lower s) = lower (drop_str n s).
Proof.
  revert s; induction n as [|n IH]; intros [|c s]; simpl; auto.
Qed.

Lemma lower_is_component x : is_component (lower x) = is_component x.
Proof.
  unfold is_component. destruct x as [|c [|d x]]; simpl; try reflexivity.
  - by rewrite lower_ascii_eqb_dot.
  - destruct (Ascii.eqb (lower_ascii c) "."), (Ascii.eqb c "."); reflexivity.
Qed.

Lemma filter_components_lower l :
  List.filter is_component (map lower l) = map lower (List.filter is_component l).
Proof.
  induction l as [|x l IH]; simpl; [reflexivity|].
  rewrite lower_is_component, IH. by destruct (is_component x).
Qed.

Lemma last_map_lower l : List.last (map lower l) "" = lower (List.last l "").
Proof.
  induction l as [|x [|y l] IH]; simpl in *; auto.
Qed.

Lemma lower_path_name p : path_name (lower p) = lower (path_name p).
Proof.
  unfold path_name.
  by rewrite lower_split_slash, filter_components_lower, last_map_lower.
Qed.

(** Lower-casing a path lower-cases its suffix and nothing else about it. *)
Lemma lower_path_suffix p : path_suffix (lower p) = lower (path_suffix p).
Proof.
  unfold path_suffix, len, slice_from. cbv zeta.
  rewrite lower_path_name, lower_rfind_dot, lower_length.
  destruct (_ && _); [apply lower_drop_str | reflexivity].
Qed.

(** ** Running [check_suffix] *)

Lemma state_eta {World} (s : @state World) :
  State (self_dict s) (log s) (world s) = s.
Proof. by destruct s. Qed.

Lemma contains_accepted acc x :
  contains (map VStr acc) (VStr x) = bool_decide (x ∈ acc).
Proof.
  unfold contains, str_in.
  induction acc as [|a acc IH]; cbn [map existsb str_eq].
  - symmetry. apply bool_decide_eq_false_2. apply not_elem_of_nil.
  - rewrite IH. destruct (String.eqb_spec a x) as [->|Hne]; simpl.
    + symmetry. apply bool_decide_eq_true_2. apply list_elem_of_here.
    + apply bool_decide_ext. rewrite elem_of_cons. intuition congruence.
Qed.

Lemma truthy_str x : truthy (VStr x) = bool_decide (x <> "").
Proof.
  unfold truthy. destruct (String.eqb_spec x "") as [->|Hne]; cbn [negb]; symmetry.
  - apply bool_decide_eq_false_2. intros H. by apply H.
  - by apply bool_decide_eq_true_2.
Qed.

(** The test of the loop body is the [mismatch] of the file. *)
Lemma test_mismatch acc f :
  truthy (VStr (file_suffix f)) && negb (contains (map VStr acc) (VStr (file_suffix f)))
  = bool_decide (mismatch acc f).
Proof.
  rewrite truthy_str, contains_accepted. unfold mismatch.
  repeat case_bool_decide; simpl; try reflexivity; tauto.
Qed.

Lemma path_to_value {World} ext_call f (s : @state World) :
  Path ext_call (to_value f) s = (Ok (VPath (text f)), s).
Proof. by destruct f. Qed.

Section CheckSuffix.
Context {World : Type}.
Variable ext_call : value -> string -> list value -> World -> outcome value * World.

Lemma check_body_run acc f s :
  check_body ext_call (map VStr acc) (to_value f) s =
  (Ok None,
   State (self_dict s)
         (log s ++ (if bool_decide (mismatch acc f) then [suffix_error acc f] else []))
         (world s)).
Proof.
  unfold check_body, mbind, M_bind. rewrite path_to_value.
  cbn [get_suffix str_lower mret M_ret].
  change (lower (path_suffix (text f))) with (file_suffix f).
  rewrite test_mismatch. case_bool_decide; simpl.
  - reflexivity.
  - by rewrite app_nil_r, state_eta.
Qed.

Lemma check_loop_run acc files s :
  for_each (map to_value files) (check_body ext_call (map VStr acc)) s =
  (Ok None,
   State (self_dict s)
         (log s ++ map (suffix_error acc) (filter (mismatch acc) files))
         (world s)).
Proof.
  revert s; induction files as [|f files IH]; intros s; simpl.
  - by rewrite app_nil_r, state_eta.
  - unfold mbind, M_bind. rewrite check_body_run. rewrite IH. simpl.
    rewrite filter_cons. case_bool_decide as Hm.
    + rewrite decide_True by done. simpl. by rewrite <- app_assoc.
    + rewrite decide_False by done. by rewrite app_nil_r.
Qed.

(** What a call of [check_suffix] with well-typed arguments does. *)
Lemma check_suffix_run file suffix msg s :
  check_suffix ext_call (file_value file) (suffix_value suffix) msg s =
  (Ok VNone,
   State (self_dict s)
         (log s ++ map (suffix_error (accepted_of suffix))
                       (filter (mismatch (accepted_of suffix)) (files_of file)))
         (world s)).
Proof.
  unfold check_suffix.
  assert (Hs : (if is_str (suffix_value suffix) then mret [suffix_value suffix]
                else elements ext_call (suffix_value suffix)) s
               = (Ok (map VStr (accepted_of suffix)), s)) by by destruct suffix.
  assert (Hf : forall s' : @state World,
             (if is_str (file_value file) || is_path (file_value file)
              then mret [file_value file]
              else elements ext_call (file_value file)) s'
             = (Ok (map to_value (files_of file)), s')).
  { intros s'. by destruct file as [[]|]. }
  unfold mbind at 1, M_bind at 1. rewrite Hs.
  unfold mbind at 1, M_bind at 1. rewrite Hf.
  unfold mbind at 1, M_bind at 1. rewrite check_loop_run. reflexivity.
Qed.

End CheckSuffix.

(** ** Name and attribute lookups *)

Lemma load_file_path {World} (s : @state World) :
  load_global "file_path" s = (Raised (NameError "file_path"), s).
Proof. reflexivity. Qed.

Lemma load_framework_dict {World} (s : @state World) :
  load_global "framework_dict" s = (Raised (NameError "framework_dict"), s).
Proof. reflexivity. Qed.

Lemma load_backend_class {World} (s : @state World) :
  load_global "PyTorchBackend" s = (Ok (VClass PyTorchBackend), s)
  /\ load_global "TorchscriptBackend" s = (Ok (VClass TorchscriptBackend), s)
  /\ load_global "ONNXBackend" s = (Ok (VClass ONNXBackend), s)
  /\ load_global "TensorRTBackend" s = (Ok (VClass TensorRTBackend), s)
  /\ load_global "OpenVinoBackend" s = (Ok (VClass OpenVinoBackend), s)
  /\ load_global "TFLiteBackend" s = (Ok (VClass TFLiteBackend), s).
Proof. repeat split. Qed.

Lemma getattr_self_bound {World} name v (s : @state World) :
  self_dict s !! name = Some v -> getattr_self name s = (Ok v, s).
Proof. intros H. unfold getattr_self. by rewrite H. Qed.

Lemma getattr_self_unbound {World} name (s : @state World) :
  self_dict s !! name = None -> name ∉ class_attrs ->
  getattr_self name s = (Raised (AttributeError "ReidAutoBackend" name), s).
Proof.
  intros H Hc. unfold getattr_self. rewrite H.
  by rewrite bool_decide_eq_false_2.
Qed.

Lemma getattr_self_cases {World} name (s : @state World) :
  (exists v, getattr_self name s = (Ok v, s))
  \/ getattr_self name s = (Raised (AttributeError "ReidAutoBackend" name), s).
Proof.
  unfold getattr_self. destruct (_ !! _); [|case_bool_decide]; eauto.
Qed.

(** An attribute read never changes the state. *)
Lemma getattr_self_state {World} name (s : @state World) :
  snd (getattr_self name s) = s.
Proof. unfold getattr_self. destruct (_ !! _); [|case_bool_decide]; reflexivity. Qed.

(** ** [keeps]: who writes the attributes of the selector *)

Section Keeps.
Context {World : Type}.
Variable ext_call : value -> string -> list value -> World -> outcome value * World.

Lemma keeps_ret {A} (a : A) : keeps (World:=World) (mret a).
Proof. by intros s. Qed.

Lemma keeps_raise {A} e : keeps (@raise World A e).
Proof. by intros s. Qed.

Lemma keeps_exit {A} : keeps (@exit World A).
Proof. by intros s. Qed.

Lemma keeps_bind {A B} (m : M World A) (f : A -> M World B) :
  keeps m -> (forall a, keeps (f a)) -> keeps (m ≫= f).
Proof.
  intros Hm Hf s. unfold mbind, M_bind. specialize (Hm s).
  destruct (m s) as [[a|e] s']; simpl in *; [|done].
  by rewrite Hf.
Qed.

Lemma keeps_if {A} (b : bool) (m1 m2 : M World A) :
  keeps m1 -> keeps m2 -> keeps (if b then m1 else m2).
Proof. by destruct b. Qed.

Lemma keeps_LOGGER_error msg : keeps (@LOGGER_error World msg).
Proof. by intros s. Qed.

Lemma keeps_lift_ext c : keeps (@lift_ext World c).
Proof. intros s. unfold lift_ext. by destruct (c (world s)). Qed.

Lemma keeps_load_global name : keeps (@load_global World name).
Proof.
  unfold load_global. destruct (_ !! _); [apply keeps_ret|].
  destruct (_ !! _); [apply keeps_ret | apply keeps_raise].
Qed.

Lemma keeps_getattr_self name : keeps (@getattr_self World name).
Proof. intros s. by rewrite getattr_self_state. Qed.

Lemma keeps_call_method obj name args : keeps (call_method ext_call obj name args).
Proof. destruct obj; first [apply keeps_lift_ext | apply keeps_raise]. Qed.

Lemma keeps_call obj args : keeps (call ext_call obj args).
Proof. destruct obj; first [apply keeps_lift_ext | apply keeps_raise]. Qed.

Lemma keeps_get_suffix obj : keeps (get_suffix ext_call obj).
Proof.
  destruct obj; first [apply keeps_lift_ext | apply keeps_raise | apply keeps_ret].
Qed.

Lemma keeps_str_lower obj : keeps (str_lower ext_call obj).
Proof. destruct obj; first [apply keeps_ret | apply keeps_call_method]. Qed.

Lemma keeps_items obj : keeps (items ext_call obj).
Proof. destruct obj; first [apply keeps_ret | apply keeps_call_method]. Qed.

Lemma keeps_Path f : keeps (Path ext_call f).
Proof.
  destruct f; try first [apply keeps_ret | apply keeps_raise].
  apply keeps_bind; [apply keeps_lift_ext|].
  intros []; first [apply keeps_ret | apply keeps_raise].
Qed.

Lemma keeps_elements obj : keeps (elements ext_call obj).
Proof.
  destruct obj; try first [apply keeps_ret | apply keeps_raise].
  apply keeps_bind; [apply keeps_lift_ext|].
  intros []; first [apply keeps_ret | apply keeps_raise].
Qed.

Lemma keeps_unpack2 obj : keeps (unpack2 ext_call obj).
Proof.
  apply keeps_bind; [apply keeps_elements|].
  intros [|a [|b [|c l]]]; first [apply keeps_ret | apply keeps_raise].
Qed.

Lemma keeps_for_each {A B} (xs : list A) (body : A -> M World (option B)) :
  (forall x, keeps (body x)) -> keeps (for_each xs body).
Proof.
  intros Hb. induction xs as [|x xs IH]; simpl; [apply keeps_ret|].
  apply keeps_bind; [apply Hb|]. intros [v|]; [apply keeps_ret | apply IH].
Qed.

End Keeps.

Create HintDb keeps discriminated.
#[global] Hint Resolve keeps_ret keeps_raise keeps_exit keeps_if
  keeps_LOGGER_error keeps_lift_ext keeps_load_global keeps_getattr_self
  keeps_call_method keeps_call keeps_get_suffix keeps_str_lower keeps_items
  keeps_Path keeps_elements keeps_unpack2 : keeps.

(** Walks down a method body: every step is a bind, a loop, a branch or one
    of the primitives above. *)
Ltac keeps_steps :=
  repeat first
    [ progress intros
    | solve [eauto with keeps]
    | apply keeps_bind
    | apply keeps_for_each
    | apply keeps_if
    | match goal with |- keeps (let '(_, _) := ?p in _) => destruct p end
    | match goal with |- keeps (match ?r with Some _ => _ | None => _ end) => destruct r end ].

Section MethodsKeep.
Context {World : Type}.
Variable ext_call : value -> string -> list value -> World -> outcome value * World.

Lemma keeps_identify_framework path : keeps (identify_framework ext_call path).
Proof. unfold identify_framework. keeps_steps. Qed.

Lemma keeps_get_backend : keeps (get_backend ext_call).
Proof. unfold get_backend. keeps_steps. Qed.

Lemma keeps_forward b : keeps (forward ext_call b).
Proof. unfold forward. keeps_steps. Qed.

Lemma keeps_check_suffix file suffix msg : keeps (check_suffix ext_call file suffix msg).
Proof. unfold check_suffix, check_body. keeps_steps. Qed.

End MethodsKeep.

(** ** Running the constructor *)

Section Constructor.
Context {World : Type}.

(** The constructor in terms of the method [self.identify_framework]
    resolves to. *)
Lemma init_body_run identify weights device half (s : @state World) :
  is_list weights = false ->
  init_body identify weights device half s =
  match identify weights s with
  | (Ok fw, s') =>
      (Ok VNone,
       State (<["half" := half]> (<["device" := device]>
               (<["weights" := weights]> (<["framework" := fw]> (self_dict s')))))
             (log s') (world s'))
  | (Raised e, s') => (Raised e, s')
  end.
Proof.
  intros Hl. unfold init_body, mbind, M_bind. rewrite Hl. simpl.
  by destruct (identify weights s) as [[fw|e] s'].
Qed.

Lemma init_body_list_run identify w rest device half (s : @state World) :
  init_body identify (VList (w :: rest)) device half s =
  match identify w s with
  | (Ok fw, s') =>
      (Ok VNone,
       State (<["half" := half]> (<["device" := device]>
               (<["weights" := VList (w :: rest)]>
                 (<["framework" := fw]> (self_dict s')))))
             (log s') (world s'))
  | (Raised e, s') => (Raised e, s')
  end.
Proof.
  unfold init_body, mbind, M_bind. simpl.
  by destruct (identify w s) as [[fw|e] s'].
Qed.

(** [constructed] is what the body of the constructor builds from a fresh
    object when the method it calls returns [fw], for a single path and for
    a list of paths. *)
Lemma constructed_by_init fw (p : pathlike) device half (wd : World) :
  init_body (fun _ => mret (VStr fw)) (to_value p) device half (State ∅ [] wd)
  = (Ok VNone, constructed fw (to_value p) device half wd).
Proof. rewrite init_body_run; [reflexivity | by destruct p]. Qed.

Lemma constructed_by_init_list fw w rest device half (wd : World) :
  init_body (fun _ => mret (VStr fw)) (VList (w :: rest)) device half (State ∅ [] wd)
  = (Ok VNone, constructed fw (VList (w :: rest)) device half wd).
Proof. by rewrite init_body_list_run. Qed.

Lemma constructed_unbound fw weights device half (wd : World) name :
  name ∉ ["framework"; "weights"; "device"; "half"] ->
  self_dict (constructed fw weights device half wd) !! name = None.
Proof.
  rewrite !elem_of_cons, elem_of_nil. intros H. unfold constructed. simpl.
  rewrite !lookup_insert_ne by (intros <-; tauto). apply lookup_empty.
Qed.

End Constructor.

(** ** Running the other methods *)

Section Runs.
Context {World : Type}.
Variable ext_call : value -> string -> list value -> World -> outcome value * World.

(** The first statement of [identify_framework] reads the name [file_path],
    which nothing binds: the call ends there. *)
Lemma identify_framework_run path (s : @state World) :
  identify_framework ext_call path s = (Raised (NameError "file_path"), s).
Proof. unfold identify_framework, mbind, M_bind. by rewrite load_file_path. Qed.

(** The constructor of the class never gets past its first two lines. *)
Lemma init_run weights device half (s : @state World) :
  __init__ ext_call weights device half s =
  (Raised (match weights with VList [] => IndexError | _ => NameError "file_path" end), s).
Proof.
  unfold __init__.
  destruct weights as [| | | |[|w rest]| | | | |];
    try (rewrite init_body_run by done; by rewrite identify_framework_run).
  - reflexivity.
  - rewrite init_body_list_run. by rewrite identify_framework_run.
Qed.

(** [get_backend] reads six attributes and then asks a list for [items]. *)
Lemma get_backend_run (s : @state World) :
  exists ty attr, get_backend ext_call s = (Raised (AttributeError ty attr), s).
Proof.
  unfold get_backend.
  destruct (load_backend_class s) as (L1 & L2 & L3 & L4 & L5 & L6).
  unfold mbind, M_bind.
  destruct (getattr_self_cases "pt" s) as [[v1 ->]| ->]; [rewrite L1|by eauto].
  destruct (getattr_self_cases "torchscript" s) as [[v2 ->]| ->]; [rewrite L2|by eauto].
  destruct (getattr_self_cases "onnx" s) as [[v3 ->]| ->]; [rewrite L3|by eauto].
  destruct (getattr_self_cases "tensorrt" s) as [[v4 ->]| ->]; [rewrite L4|by eauto].
  destruct (getattr_self_cases "openvino" s) as [[v5 ->]| ->]; [rewrite L5|by eauto].
  destruct (getattr_self_cases "tflite" s) as [[v6 ->]| ->]; [rewrite L6|by eauto].
  (* backend_map.items() on a list *)
  simpl. by eauto.
Qed.

Lemma get_backend_unbound_pt (s : @state World) :
  self_dict s !! "pt" = None ->
  get_backend ext_call s = (Raised (AttributeError "ReidAutoBackend" "pt"), s).
Proof.
  intros H. unfold get_backend, mbind, M_bind.
  rewrite getattr_self_unbound; [reflexivity | done |].
  unfold class_attrs. rewrite !elem_of_cons, elem_of_nil. intuition discriminate.
Qed.

Lemma forward_unbound b (s : @state World) :
  self_dict s !! "backend" = None ->
  forward ext_call b s = (Raised (AttributeError "ReidAutoBackend" "backend"), s).
Proof.
  intros H. unfold forward, mbind, M_bind.
  rewrite getattr_self_unbound; [reflexivity | done |].
  unfold class_attrs. rewrite !elem_of_cons, elem_of_nil. intuition discriminate.
Qed.

Lemma forward_bound name batch (s : @state World) :
  self_dict s !! "backend" = Some (VExt name) ->
  forward ext_call batch s =
  match ext_call (VExt name) "preprocess_input" [batch] (world s) with
  | (Ok normalized, w1) =>
      let '(r, w2) := ext_call (VExt name) "get_features" [normalized] w1 in
      (r, State (self_dict s) (log s) w2)
  | (Raised e, w1) => (Raised e, State (self_dict s) (log s) w1)
  end.
Proof.
  intros H. unfold forward, mbind, M_bind.
  rewrite (getattr_self_bound _ _ _ H). simpl. unfold lift_ext.
  destruct (ext_call _ "preprocess_input" _ _) as [[x|e] w1]; simpl; [|done].
  unfold getattr_self. simpl. rewrite H. unfold call_method, lift_ext. simpl.
  by destruct (ext_call _ "get_features" _ _).
Qed.

End Runs.

(** ** Facts used by the statements about [check_suffix] *)

Lemma file_suffix_lower f1 f2 :
  lower (text f1) = lower (text f2) -> file_suffix f1 = file_suffix f2.
Proof.
  intros H. unfold file_suffix. by rewrite <- !lower_path_suffix, H.
Qed.

Lemma mismatch_lower acc f1 f2 :
  lower (text f1) = lower (text f2) -> mismatch acc f1 <-> mismatch acc f2.
Proof. intros H. unfold mismatch. by rewrite (file_suffix_lower f1 f2 H). Qed.

Lemma no_suffix_no_mismatch acc f : path_suffix (text f) = "" -> ~ mismatch acc f.
Proof. intros H [Hne _]. apply Hne. unfold file_suffix. by rewrite H. Qed.

Lemma app_one_neq {A} (l : list A) x : (l ++ [x])%list <> l.
Proof.
  intros H. apply (f_equal length) in H. rewrite length_app in H. simpl in H. lia.
Qed.

Lemma flags_iff_mismatch {World} ext f suffix msg (s : @state World) :
  flags ext f suffix msg s <-> mismatch (accepted_of suffix) f.
Proof.
  unfold flags.
  change (to_value f) with (file_value (OneFile f)).
  rewrite check_suffix_run. simpl. rewrite filter_cons, filter_nil.
  destruct (decide (mismatch (accepted_of suffix) f)) as [Hm|Hm]; simpl.
  - split; [done|]. intros _. apply app_one_neq.
  - rewrite app_nil_r. split; [congruence|done].
Qed.

(** ** The claims *)

(** C1 (the code departs from it).  [identify_framework] is to return the
    framework identifier of the extension of [path], whatever the case of
    the extension.  As written it returns for no path at all: its first
    statement reads the name [file_path], which neither the function, the
    module nor the builtins bind, so every call raises [NameError] before an
    extension is looked at; nothing is logged. *)
Theorem identify_framework_raises_NameError :
  forall World ext_call (path : value) (s : @state World),
    identify_framework ext_call path s = (Raised (NameError "file_path"), s).
Proof. intros. apply identify_framework_run. Qed.

(** C2 (the code departs from it).  Construction from a path with an
    unsupported extension is to log an error and leave through [exit()].  As
    written, construction from any path, [model.json] among them, raises
    [NameError] out of [identify_framework]: the log is as it was, no
    attribute is assigned, and the exception is not [SystemExit]. *)
Theorem construct_raises_NameError :
  forall World ext_call (w : pathlike) (device half : value) (s : @state World),
    __init__ ext_call (to_value w) device half s
      = (Raised (NameError "file_path"), s)
    /\ __init__ ext_call (VPath "model.json") device half s
      = (Raised (NameError "file_path"), s)
    /\ log (snd (__init__ ext_call (VPath "model.json") device half s)) = log s.
Proof.
  intros. unfold __init__.
  assert (H : forall v, is_list v = false ->
            init_body (identify_framework ext_call) v device half s
            = (Raised (NameError "file_path"), s)).
  { intros v Hv. rewrite init_body_run by done. by rewrite identify_framework_run. }
  split; [|split].
  - apply H. by destruct w.
  - by apply H.
  - by rewrite H.
Qed.

(** C3 (the code departs from it).  [get_backend] is to return the backend
    of the stored framework identifier, built from the stored weights, device
    and precision flag.  As written it returns nothing in any state of the
    selector: it raises [AttributeError], at the latest when it asks the list
    [backend_map] for [items]; on a selector that holds what the constructor
    assigns, the first attribute it reads, [self.pt], is already missing. *)
Theorem get_backend_raises_AttributeError :
  forall World ext_call,
    (forall s : @state World,
        exists ty attr, get_backend ext_call s = (Raised (AttributeError ty attr), s))
    /\ (forall fw weights device half (wd : World),
          get_backend ext_call (constructed fw weights device half wd)
          = (Raised (AttributeError "ReidAutoBackend" "pt"),
             constructed fw weights device half wd)).
Proof.
  intros. split.
  - apply get_backend_run.
  - intros. apply get_backend_unbound_pt. apply constructed_unbound.
    intros Hin. repeat (apply elem_of_cons in Hin as [Hin|Hin]; [discriminate|]).
    by apply elem_of_nil in Hin.
Qed.

(** C4.  On a selector whose attribute [backend] holds an outside object,
    [forward(batch)] is [backend.get_features(backend.preprocess_input(batch))]:
    [preprocess_input] runs first, its result goes to [get_features]
    untouched, the result of [get_features] is returned as it is, and an
    exception of either call comes out unchanged, the second call not being
    made when the first one fails.  The selector's attributes and the log
    stay as they were. *)
Theorem forward_delegates :
  forall World ext_call (name : string) (batch : value) (s : @state World),
    self_dict s !! "backend" = Some (VExt name) ->
    forward ext_call batch s =
    match ext_call (VExt name) "preprocess_input" [batch] (world s) with
    | (Ok normalized, w1) =>
        let '(r, w2) := ext_call (VExt name) "get_features" [normalized] w1 in
        (r, State (self_dict s) (log s) w2)
    | (Raised e, w1) => (Raised e, State (self_dict s) (log s) w1)
    end.
Proof. intros. by apply forward_bound. Qed.

(** C5 (the code departs from it).  The selector is to compute its
    framework identifier once, in the constructor, and to create its backend
    on the first request, keep it and reuse it in every [forward].  As
    written no method of the class ever assigns an attribute: the
    constructor raises before its assignments, whatever its arguments, and
    [identify_framework], [get_backend], [forward] and [check_suffix] leave
    the instance dictionary as they found it, in every state.  So no
    identifier is stored and [backend] is never bound: on the object as the
    constructor call receives it, a request for the backend raises and
    stores nothing, and [forward] raises [AttributeError] for [backend],
    before and after that request. *)
Theorem selector_never_binds_backend :
  forall World ext_call (s : @state World),
    (forall weights device half,
        exists e, __init__ ext_call weights device half s = (Raised e, s))
    /\ (forall path, self_dict (snd (identify_framework ext_call path s)) = self_dict s)
    /\ self_dict (snd (get_backend ext_call s)) = self_dict s
    /\ (forall batch, self_dict (snd (forward ext_call batch s)) = self_dict s)
    /\ (forall file suffix msg,
           self_dict (snd (check_suffix ext_call file suffix msg s)) = self_dict s)
    /\ (forall lg w batch,
           get_backend ext_call (State ∅ lg w)
           = (Raised (AttributeError "ReidAutoBackend" "pt"), State ∅ lg w)
           /\ forward ext_call batch (State ∅ lg w)
              = (Raised (AttributeError "ReidAutoBackend" "backend"), State ∅ lg w)
           /\ forward ext_call batch (snd (get_backend ext_call (State ∅ lg w)))
              = (Raised (AttributeError "ReidAutoBackend" "backend"), State ∅ lg w)).
Proof.
  intros. split; [|split; [|split; [|split; [|split]]]].
  - intros. eexists. apply init_run.
  - intros. apply keeps_identify_framework.
  - apply keeps_get_backend.
  - intros. apply keeps_forward.
  - intros. apply keeps_check_suffix.
  - intros lg w batch.
    assert (Hg : get_backend ext_call (State ∅ lg w)
                 = (Raised (AttributeError "ReidAutoBackend" "pt"), State ∅ lg w))
      by (apply get_backend_unbound_pt; apply lookup_empty).
    assert (Hf : forward ext_call batch (State ∅ lg w)
                 = (Raised (AttributeError "ReidAutoBackend" "backend"), State ∅ lg w))
      by (apply forward_unbound; apply lookup_empty).
    split; [exact Hg|]. split; [exact Hf|]. by rewrite Hg.
Qed.

(** C6 (the code departs from it).  With a non-empty list as [weights] the
    framework identifier is to be the one of the first element.  As written
    the constructor does take [weights[0]], but the call of
    [identify_framework] on it raises [NameError]: for every list, whatever
    its first element and the others are, construction fails, the attribute
    [framework] is not assigned and the state is as it was, so no identifier
    is determined by any element. *)
Theorem construct_from_list_raises_NameError :
  forall World ext_call (w : value) (rest : list value) (device half : value)
         (s : @state World),
    __init__ ext_call (VList (w :: rest)) device half s
      = (Raised (NameError "file_path"), s)
    /\ self_dict (snd (__init__ ext_call (VList (w :: rest)) device half s))
         !! "framework"
       = self_dict s !! "framework"
    /\ __init__ ext_call (VList [VPath "model.onnx"; VPath "other.pt"]) device half s
       = (Raised (NameError "file_path"), s).
Proof.
  intros.
  assert (H : forall l, __init__ ext_call (VList (w :: l)) device half s
                        = (Raised (NameError "file_path"), s)).
  { intros l. unfold __init__. rewrite init_body_list_run.
    by rewrite identify_framework_run. }
  split; [apply H|]. split; [by rewrite H|].
  unfold __init__. rewrite init_body_list_run. by rewrite identify_framework_run.
Qed.

(** C7.  For a file or a list of files and a suffix or a tuple of suffixes,
    [check_suffix] returns [None] without raising and without leaving through
    [exit()], and it appends to the log one error per file whose lower-cased
    suffix is not empty and is none of the accepted suffixes, in the order of
    the files, and nothing else.  In particular a file that has a suffix
    which no accepted suffix equals, even up to letter case, is reported.
    [check_suffix(['a.pt', 'b.onnx'], '.pt')] logs one error, for [b.onnx]. *)
Theorem check_suffix_logs_each_mismatch :
  forall World ext_call (msg : value) (s : @state World),
    (forall (file : file_arg) (suffix : suffix_arg),
        check_suffix ext_call (file_value file) (suffix_value suffix) msg s =
        (Ok VNone,
         State (self_dict s)
               (log s ++ map (suffix_error (accepted_of suffix))
                             (filter (mismatch (accepted_of suffix)) (files_of file)))
               (world s)))
    /\ (forall (file : file_arg) (suffix : suffix_arg) (f : pathlike),
          f ∈ files_of file ->
          path_suffix (text f) <> "" ->
          (forall a, a ∈ accepted_of suffix -> lower a <> lower (path_suffix (text f))) ->
          suffix_error (accepted_of suffix) f
          ∈ log (snd (check_suffix ext_call (file_value file) (suffix_value suffix) msg s)))
    /\ check_suffix ext_call (VList [VStr "a.pt"; VStr "b.onnx"]) (VStr ".pt") msg s =
       (Ok VNone,
        State (self_dict s)
              (log s ++ [ LogError
                            [ Lit "File "; Fmt (VStr "b.onnx");
                              Lit " does not have an acceptable suffix. Expected: ";
                              Fmt (VList [VStr ".pt"]) ] ])
              (world s)).
Proof.
  intros. split; [|split].
  - intros. apply check_suffix_run.
  - intros file suffix f Hin Hsfx Hacc. rewrite check_suffix_run. simpl.
    apply elem_of_app. right. apply list_elem_of_fmap_2.
    apply list_elem_of_filter. split; [|done]. split.
    + unfold file_suffix. by rewrite lower_empty.
    + intros Ha. apply (Hacc _ Ha). unfold file_suffix. by rewrite lower_idem.
  - exact (check_suffix_run ext_call (Files [AsStr "a.pt"; AsStr "b.onnx"])
             (OneSuffix ".pt") msg s).
Qed.

(** C8 (amended).  [check_suffix] lower-cases the suffix of the file and
    compares it with the accepted suffixes as they were given.  Whether a
    file is flagged does not depend on the letter case of its path, of its
    suffix in particular; a file is flagged exactly when its lower-cased
    suffix is not empty and is not, letter for letter, one of the accepted
    suffixes. *)
Theorem check_suffix_file_case_insensitive :
  forall World ext_call (f1 f2 : pathlike) (suffix : suffix_arg) (msg : value)
         (s : @state World),
    lower (text f1) = lower (text f2) ->
    (flags ext_call f1 suffix msg s <-> flags ext_call f2 suffix msg s)
    /\ (flags ext_call f1 suffix msg s <->
        file_suffix f1 <> "" /\ file_suffix f1 ∉ accepted_of suffix).
Proof.
  intros World ext_call f1 f2 suffix msg s H. split.
  - rewrite !flags_iff_mismatch. by apply mismatch_lower.
  - apply flags_iff_mismatch.
Qed.


(** C10.  A path without a suffix is never reported: when every file given
    to [check_suffix] has an empty suffix, the call returns [None] and the
    log, like the rest of the state, is as it was, whatever the accepted
    suffixes are. *)
Theorem check_suffix_ignores_suffixless :
  forall World ext_call (file : file_arg) (suffix : suffix_arg) (msg : value)
         (s : @state World),
    Forall (fun f => path_suffix (text f) = "") (files_of file) ->
    check_suffix ext_call (file_value file) (suffix_value suffix) msg s = (Ok VNone, s).
Proof.
  intros World ext_call file suffix msg s H. rewrite check_suffix_run.
  replace (filter (mismatch (accepted_of suffix)) (files_of file)) with (@nil pathlike).
  - simpl. by rewrite app_nil_r, state_eta.
  - symmetry. induction H as [|f fs Hf _ IH]; [done|].
    rewrite filter_cons, decide_False; [done|]. by apply no_suffix_no_mismatch.
Qed.

(** ** The claims at concrete selectors *)

(** C4 at a selector bound to a stub: [forward] returns what [get_features]
    made of the output of [preprocess_input], and the stub saw the two calls
    in that order. *)
Lemma forward_delegates_witness :
  self_dict bound_selector !! "backend" = Some (VExt "stub")
  /\ forward stub_call (VExt "batch") bound_selector
     = (Ok (VExt "feat(pre(batch))"),
        State (self_dict bound_selector) [] ["preprocess_input"; "get_features"]).
Proof.
  assert (H : self_dict bound_selector !! "backend" = Some (VExt "stub"))
    by reflexivity.
  split; [exact H|].
  rewrite (forward_delegates (list string) stub_call "stub" (VExt "batch")
             bound_selector H).
  reflexivity.
Defined.

(** C8 as it was stated fails: the same file is accepted with the suffix
    [.pt] and flagged with the suffix [.PT]. *)
Lemma accepted_suffix_case_matters :
  check_suffix stub_call (VStr "a.pt") (VStr ".pt") (VStr "") fresh = (Ok VNone, fresh)
  /\ check_suffix stub_call (VStr "a.pt") (VStr ".PT") (VStr "") fresh
     = (Ok VNone,
        State ∅
              [ LogError
                  [ Lit "File "; Fmt (VStr "a.pt");
                    Lit " does not have an acceptable suffix. Expected: ";
                    Fmt (VList [VStr ".PT"]) ] ]
              []).
Proof. split; reflexivity. Qed.

(** C8 (amended) at [a.PT] and [a.pt] with the accepted suffix [.pt]. *)
Lemma check_suffix_file_case_insensitive_witness :
  lower "a.PT" = lower "a.pt"
  /\ (flags stub_call (AsStr "a.PT") (OneSuffix ".pt") (VStr "") fresh
      <-> flags stub_call (AsStr "a.pt") (OneSuffix ".pt") (VStr "") fresh).
Proof.
  assert (H : lower (text (AsStr "a.PT")) = lower (text (AsStr "a.pt")))
    by reflexivity.
  split; [exact H|].
  exact (proj1 (check_suffix_file_case_insensitive (list string) stub_call
                  (AsStr "a.PT") (AsStr "a.pt") (OneSuffix ".pt") (VStr "") fresh H)).
Defined.

(** C10 at two paths without a suffix. *)
Lemma check_suffix_ignores_suffixless_witness :
  Forall (fun f => path_suffix (text f) = "") [AsPath "model"; AsStr "weights/osnet"]
  /\ check_suffix stub_call (VList [VPath "model"; VStr "weights/osnet"])
       (VTuple [VStr ".pt"]) (VStr "") fresh
     = (Ok VNone, fresh).
Proof.
  assert (H : Forall (fun f => path_suffix (text f) = "")
                (files_of (Files [AsPath "model"; AsStr "weights/osnet"])))
    by (repeat constructor).
  split; [exact H|].
  exact (check_suffix_ignores_suffixless (list string) stub_call
           (Files [AsPath "model"; AsStr "weights/osnet"]) (Suffixes [".pt"])
           (VStr "") fresh H).
Defined.

(** C7 at [check_suffix(['a.pt', 'b.onnx'], '.pt')]: [b.onnx] has a suffix
    that [.pt] does not equal, and its error is in the log. *)
Lemma check_suffix_logs_each_mismatch_witness :
  AsStr "b.onnx" ∈ [AsStr "a.pt"; AsStr "b.onnx"]
  /\ path_suffix "b.onnx" <> ""
  /\ (forall a, a ∈ [".pt"] -> lower a <> lower (path_suffix "b.onnx"))
  /\ suffix_error [".pt"] (AsStr "b.onnx")
     ∈ log (snd (check_suffix stub_call (VList [VStr "a.pt"; VStr "b.onnx"])
                   (VStr ".pt") (VStr "") fresh)).
Proof.
  assert (H1 : AsStr "b.onnx" ∈ files_of (Files [AsStr "a.pt"; AsStr "b.onnx"]))
    by (right; left).
  assert (H2 : path_suffix (text (AsStr "b.onnx")) <> "") by discriminate.
  assert (H3 : forall a, a ∈ accepted_of (OneSuffix ".pt") ->
                         lower a <> lower (path_suffix (text (AsStr "b.onnx")))).
  { intros a Ha. apply list_elem_of_singleton in Ha. subst a. discriminate. }
  repeat split; [exact H1 | exact H2 | exact H3 |].
  exact (proj1 (proj2 (check_suffix_logs_each_mismatch (list string) stub_call
                         (VStr "") fresh))
           (Files [AsStr "a.pt"; AsStr "b.onnx"]) (OneSuffix ".pt")
           (AsStr "b.onnx") H1 H2 H3).
Defined.

(** ** [static]: what does not look at the selector *)

Section Static.
Context {World : Type}.
Variable ext_call : value -> string -> list value -> World -> outcome value * World.

Lemma static_ret {A} (a : A) : static (World:=World) (mret a).
Proof. intros w. exists (Ok a), [], w. intros. by rewrite app_nil_r. Qed.

Lemma static_raise {A} e : static (@raise World A e).
Proof. intros w. exists (Raised e), [], w. intros. unfold raise. by rewrite app_nil_r. Qed.

Lemma static_bind {A B} (m : M World A) (f : A -> M World B) :
  static m -> (forall a, static (f a)) -> static (m ≫= f).
Proof.
  intros Hm Hf w. destruct (Hm w) as ([a|e] & l & w' & H).
  - destruct (Hf a w') as (r2 & l2 & w2 & H2).
    exists r2, (l ++ l2)%list, w2. intros d lg.
    unfold mbind, M_bind. rewrite H, H2. by rewrite app_assoc.
  - exists (Raised e), l, w'. intros d lg. unfold mbind, M_bind. by rewrite H.
Qed.

Lemma static_if {A} (b : bool) (m1 m2 : M World A) :
  static m1 -> static m2 -> static (if b then m1 else m2).
Proof. by destruct b. Qed.

Lemma static_LOGGER_error msg : static (@LOGGER_error World msg).
Proof. intros w. by exists (Ok tt), [LogError msg], w. Qed.

Lemma static_lift_ext c : static (@lift_ext World c).
Proof.
  intros w. destruct (c w) as [r w'] eqn:E. exists r, [], w'.
  intros d lg. unfold lift_ext. simpl. by rewrite E, app_nil_r.
Qed.

Lemma static_call_method obj name args : static (call_method ext_call obj name args).
Proof. destruct obj; first [apply static_lift_ext | apply static_raise]. Qed.

Lemma static_get_suffix obj : static (get_suffix ext_call obj).
Proof.
  destruct obj; first [apply static_lift_ext | apply static_raise | apply static_ret].
Qed.

Lemma static_str_lower obj : static (str_lower ext_call obj).
Proof. destruct obj; first [apply static_ret | apply static_call_method]. Qed.

Lemma static_Path f : static (Path ext_call f).
Proof.
  destruct f; try first [apply static_ret | apply static_raise].
  apply static_bind; [apply static_lift_ext|].
  intros []; first [apply static_ret | apply static_raise].
Qed.

Lemma static_elements obj : static (elements ext_call obj).
Proof.
  destruct obj; try first [apply static_ret | apply static_raise].
  apply static_bind; [apply static_lift_ext|].
  intros []; first [apply static_ret | apply static_raise].
Qed.

Lemma static_for_each {A B} (xs : list A) (body : A -> M World (option B)) :
  (forall x, static (body x)) -> static (for_each xs body).
Proof.
  intros Hb. induction xs as [|x xs IH]; simpl; [apply static_ret|].
  apply static_bind; [apply Hb|]. intros [v|]; [apply static_ret | apply IH].
Qed.

Lemma static_check_body suffix f : static (check_body ext_call suffix f).
Proof.
  unfold check_body.
  apply static_bind; [apply static_Path|]. intros p.
  apply static_bind; [apply static_get_suffix|]. intros sfx.
  apply static_bind; [apply static_str_lower|]. intros file_suffix.
  apply static_if; [|apply static_ret].
  apply static_bind; [apply static_LOGGER_error|]. intros _. apply static_ret.
Qed.

Lemma static_check_suffix file suffix msg :
  static (check_suffix ext_call file suffix msg).
Proof.
  unfold check_suffix.
  apply static_bind.
  { apply static_if; [apply static_ret | apply static_elements]. }
  intros sfx. apply static_bind.
  { apply static_if; [apply static_ret | apply static_elements]. }
  intros files. apply static_bind.
  { apply static_for_each. intros f. apply static_check_body. }
  intros _. apply static_ret.
Qed.

End Static.

(** ** More facts about suffixes *)

Lemma rfind_lower_bound c s : -1 <= rfind c s.
Proof.
  induction s as [|a s IH]; simpl; [lia|].
  destruct (0 <=? rfind c s) eqn:E; [apply Z.leb_le in E; lia|].
  destruct (Ascii.eqb a c); lia.
Qed.

Lemma rfind_absent c s : rfind c s < 0 -> has_char c s = false.
Proof.
  induction s as [|a s IH]; simpl; [done|].
  destruct (0 <=? rfind c s) eqn:E.
  - apply Z.leb_le in E. lia.
  - apply Z.leb_gt in E. destruct (Ascii.eqb a c); [lia|]. intros _. by apply IH.
Qed.

(** The slice at the last occurrence of [c] starts with [c] and holds no
    other one. *)
Lemma rfind_slice c s :
  0 <= rfind c s ->
  exists rest, slice_from (rfind c s) s = String c rest
               /\ has_char c rest = false
               /\ len rest = len s - rfind c s - 1.
Proof.
  unfold slice_from, len.
  induction s as [|a s IH]; simpl rfind; [lia|].
  destruct (0 <=? rfind c s) eqn:E.
  - apply Z.leb_le in E. intros _. destruct (IH E) as (rest & H1 & H2 & H3).
    exists rest. replace (Z.to_nat (rfind c s + 1)) with (S (Z.to_nat (rfind c s))) by lia.
    simpl. split; [done|]. split; [done|]. lia.
  - apply Z.leb_gt in E. destruct (Ascii.eqb_spec a c) as [->|Hne]; [|lia].
    intros _. exists s. simpl. split; [done|]. split; [by apply rfind_absent|]. lia.
Qed.

Lemma has_char_drop_str c n s : has_char c s = false -> has_char c (drop_str n s) = false.
Proof.
  revert s. induction n as [|n IH]; intros [|a s]; simpl; try done.
  intros H. apply orb_false_elim in H as [_ H]. by apply IH.
Qed.

Lemma split_no_sep c s : Forall (fun x => has_char c x = false) (split c s).
Proof.
  induction s as [|a s IH]; simpl; [by repeat constructor|].
  destruct (Ascii.eqb a c) eqn:E; [by constructor|].
  destruct (split c s) as [|x xs]; [by repeat constructor; simpl; rewrite E|].
  inversion IH as [|? ? Hx Hxs]; subst. constructor; [|done]. simpl. by rewrite E.
Qed.

Lemma path_name_no_slash p : has_char "/" (path_name p) = false.
Proof.
  unfold path_name.
  assert (H : Forall (fun x => has_char "/" x = false)
                (List.filter is_component (split "/" p))).
  { pose proof (split_no_sep "/" p) as Hs.
    induction Hs as [|x l Hx _ IH]; simpl; [constructor|].
    destruct (is_component x); [by constructor | done]. }
  induction H as [|x [|y l] Hx Hl IH]; simpl in *; auto.
Qed.

Lemma lower_has_char_dot s : has_char "." (lower s) = has_char "." s.
Proof. induction s as [|a s IH]; simpl; [done|]. by rewrite lower_ascii_eqb_dot, IH. Qed.

Lemma lower_has_char_slash s : has_char "/" (lower s) = has_char "/" s.
Proof. induction s as [|a s IH]; simpl; [done|]. by rewrite lower_ascii_eqb_slash, IH. Qed.

Lemma file_suffix_shape f : file_suffix f = "" \/ suffix_shaped (file_suffix f).
Proof.
  unfold file_suffix, path_suffix. cbv zeta.
  set (name := path_name (text f)).
  destruct ((0 <? rfind "." name) && (rfind "." name <? len name - 1)) eqn:E;
    [right | by left].
  apply andb_true_iff in E as [E1 E2]. apply Z.ltb_lt in E1, E2.
  destruct (rfind_slice "." name) as (rest & H1 & H2 & H3); [lia|].
  rewrite H1. exists (lower rest). simpl. split; [done|].
  split; [|split; [|split]].
  - rewrite lower_empty. intros ->. unfold len in *. simpl in H3. lia.
  - by rewrite lower_has_char_dot.
  - rewrite lower_has_char_slash.
    assert (Hn : has_char "/" (slice_from (rfind "." name) name) = false)
      by apply has_char_drop_str, path_name_no_slash.
    rewrite H1 in Hn. exact Hn.
  - by rewrite lower_idem.
Qed.

(** ** More runs, shared by the statements below *)

Section MoreRuns.
Context {World : Type}.
Variable ext_call : value -> string -> list value -> World -> outcome value * World.

(** The loop of [check_suffix] over well-typed files followed by anything
    [Path] rejects: the files are examined, then the loop ends in
    [TypeError]. *)
Lemma check_loop_stops acc fs v rest (s : @state World) :
  path_like v = false ->
  for_each (map to_value fs ++ v :: rest) (check_body ext_call (map VStr acc)) s =
  (Raised (TypeError ("expected str, bytes or os.PathLike object, not " ++ type_name v)),
   State (self_dict s)
         (log s ++ map (suffix_error acc) (filter (mismatch acc) fs))
         (world s)).
Proof.
  intros Hv. revert s. induction fs as [|f fs IH]; intros s.
  - simpl. unfold mbind, M_bind, check_body, mbind, M_bind.
    rewrite app_nil_r, state_eta. by destruct v.
  - simpl. unfold mbind at 1, M_bind at 1. rewrite check_body_run, IH. simpl.
    rewrite filter_cons. case_bool_decide as Hm.
    + rewrite decide_True by done. simpl. by rewrite <- app_assoc.
    + rewrite decide_False by done. by rewrite app_nil_r.
Qed.

End MoreRuns.

Lemma filter_all {A} (P : A -> Prop) `{forall x, Decision (P x)} (l : list A) :
  Forall P l -> filter P l = l.
Proof.
  induction 1 as [|x l Hx _ IH]; [done|].
  rewrite filter_cons, decide_True by done. by rewrite IH.
Qed.

(** ** Further properties of the methods *)

(** X1.  Construction never succeeds.  Whatever [weights], [device] and
    [half] are, [ReidAutoBackend(weights, device, half)] raises and leaves
    the object, the log and the outside world as they were: [IndexError] when
    [weights] is the empty list, [NameError] out of [identify_framework] in
    every other case.  The empty list is rejected before the method is
    looked at, whatever [self.identify_framework] resolves to. *)
Theorem construct_never_succeeds :
  forall World ext_call (weights device half : value) (s : @state World),
    (forall identify : value -> M World value,
        init_body identify (VList []) device half s = (Raised IndexError, s))
    /\ exists e,
        __init__ ext_call weights device half s = (Raised e, s)
        /\ (e = IndexError \/ e = NameError "file_path")
        /\ (e = IndexError <-> weights = VList []).
Proof.
  intros. split; [reflexivity|].
  eexists. split; [apply init_run|].
  destruct weights as [| | | |[|w rest]| | | | |];
    (split; [auto | split; intros; first [reflexivity | discriminate]]).
Qed.

(** X2.  When the constructor returns, it returns [None] and the selector
    holds its three arguments as they were given, [weights] being the whole
    argument and not its first element, and under [framework] what the
    method returned.  The method was run once, on [weights] itself unless
    [weights] is a list, and then on its first element.  Every other
    attribute, the log and the outside world are as the method left them. *)
Theorem construct_stores_arguments :
  forall World (identify : value -> M World value) (weights device half : value)
         (s s1 : @state World) (r : value),
    init_body identify weights device half s = (Ok r, s1) ->
    r = VNone
    /\ self_dict s1 !! "weights" = Some weights
    /\ self_dict s1 !! "device" = Some device
    /\ self_dict s1 !! "half" = Some half
    /\ exists w fw s',
        identify w s = (Ok fw, s')
        /\ ((is_list weights = false /\ w = weights)
            \/ exists rest, weights = VList (w :: rest))
        /\ self_dict s1 !! "framework" = Some fw
        /\ log s1 = log s' /\ world s1 = world s'
        /\ forall n, n ∉ ["framework"; "weights"; "device"; "half"] ->
                     self_dict s1 !! n = self_dict s' !! n.
Proof.
  intros World identify weights device half s s1 r H.
  assert (Hcases : exists w,
             ((is_list weights = false /\ w = weights)
              \/ exists rest, weights = VList (w :: rest))
             /\ init_body identify weights device half s =
                match identify w s with
                | (Ok fw, s') =>
                    (Ok VNone,
                     State (<["half" := half]> (<["device" := device]>
                             (<["weights" := weights]>
                               (<["framework" := fw]> (self_dict s')))))
                           (log s') (world s'))
                | (Raised e, s') => (Raised e, s')
                end).
  { destruct (is_list weights) eqn:El.
    - destruct weights as [| | | |[|w rest]| | | | |]; try discriminate.
      exists w. split; [right; by eexists|]. apply init_body_list_run.
    - exists weights. split; [by left|]. by apply init_body_run. }
  destruct Hcases as (w & Hw & Heq). rewrite Heq in H.
  destruct (identify w s) as [[fw|e] s'] eqn:Ei; [|discriminate].
  injection H as <- <-. simpl.
  split; [done|]. repeat (split; [by simplify_map_eq|]).
  exists w, fw, s'. split; [done|]. split; [done|].
  split; [by simplify_map_eq|]. split; [done|]. split; [done|].
  intros n Hn. rewrite !elem_of_cons, elem_of_nil in Hn.
  repeat (rewrite lookup_insert_ne by (intros <-; tauto)). done.
Qed.

(** X3.  When the constructor raises, it has assigned nothing: the four
    assignments come after the call of the method, so if the method leaves
    the attributes alone, they are after the failed construction what they
    were before it. *)
Theorem construct_failure_assigns_nothing :
  forall World (identify : value -> M World value) (weights device half : value)
         (s s1 : @state World) (e : exn),
    (forall x, keeps (identify x)) ->
    init_body identify weights device half s = (Raised e, s1) ->
    self_dict s1 = self_dict s.
Proof.
  intros World identify weights device half s s1 e Hk H.
  destruct (is_list weights) eqn:El.
  - destruct weights as [| | | |[|w rest]| | | | |]; try discriminate.
    + assert (Hn : init_body identify (VList []) device half s
                   = (Raised IndexError, s)) by reflexivity.
      rewrite Hn in H. by injection H as _ <-.
    + rewrite init_body_list_run in H. specialize (Hk w s).
      destruct (identify w s) as [[fw|e'] s']; [discriminate|].
      by injection H as _ <-.
  - rewrite init_body_run in H by done. specialize (Hk weights s).
    destruct (identify weights s) as [[fw|e'] s']; [discriminate|].
    by injection H as _ <-.
Qed.

(** X4.  Which error [get_backend] ends with.  It reads [pt], [torchscript],
    [onnx], [tensorrt], [openvino] and [tflite] in that order and raises
    [AttributeError] for the first one the selector lacks; when a caller has
    assigned all six, it raises [AttributeError] all the same, for [items] of
    the list [backend_map].  In both cases no backend class has been called
    and the state is as it was. *)
Theorem get_backend_first_missing :
  forall World ext_call (s : @state World),
    get_backend ext_call s =
    (Raised (match List.find (unbound s) backend_conditions with
             | Some c => AttributeError "ReidAutoBackend" c
             | None => AttributeError "list" "items"
             end), s).
Proof.
  intros. unfold get_backend, backend_conditions, unbound. simpl List.find.
  destruct (load_backend_class s) as (L1 & L2 & L3 & L4 & L5 & L6).
  unfold mbind, M_bind.
  repeat match goal with
  | |- context [getattr_self ?n s] =>
      let E := fresh "E" in
      destruct (self_dict s !! n) eqn:E;
      [ rewrite (getattr_self_bound _ _ _ E)
      | rewrite getattr_self_unbound; [reflexivity | exact E |];
        unfold class_attrs; rewrite !elem_of_cons, elem_of_nil; intuition discriminate ]
  | |- context [load_global ?n s] =>
      first [rewrite L1 | rewrite L2 | rewrite L3 | rewrite L4 | rewrite L5 | rewrite L6]
  end.
  reflexivity.
Qed.

(** X5.  When [backend] holds something that is not an object with methods
    of its own ([None], a str, a bool, a list, ...), [forward] raises
    [AttributeError] for [preprocess_input], naming the type of that value
    (the function, for a bound method); the state is as it was. *)
Theorem forward_backend_not_object :
  forall World ext_call (v batch : value) (s : @state World),
    self_dict s !! "backend" = Some v ->
    is_object v = false ->
    forward ext_call batch s
    = (Raised (AttributeError (attr_type_name v) "preprocess_input"), s).
Proof.
  intros World ext_call v batch s Hb Hv. unfold forward, mbind, M_bind.
  rewrite (getattr_self_bound _ _ _ Hb). by destruct v.
Qed.

(** X6.  The [LOGGER.error] calls of [identify_framework] and of
    [get_backend] are never reached: [identify_framework], the constructor
    and [get_backend] leave the log as it was, in every state and for every
    argument. *)
Theorem logging_calls_never_reached :
  forall World ext_call (s : @state World),
    (forall path, log (snd (identify_framework ext_call path s)) = log s)
    /\ (forall weights device half,
           log (snd (__init__ ext_call weights device half s)) = log s)
    /\ log (snd (get_backend ext_call s)) = log s.
Proof.
  intros. split; [|split].
  - intros. by rewrite identify_framework_run.
  - intros. by rewrite init_run.
  - destruct (get_backend_run ext_call s) as (ty & attr & ->). done.
Qed.

(** X7.  [check_suffix] does not look at the selector, whatever it is given,
    ill-typed arguments included: from a given outside world it has one
    result, appends one list of records to the log and leaves one outside
    world, the same for every content of the instance dictionary and of the
    log, and it leaves the instance dictionary as it found it.  It can be
    called on an object whose construction failed. *)
Theorem check_suffix_ignores_selector :
  forall World ext_call (file suffix msg : value) (w : World),
    exists r l w',
      forall (d : gmap string value) (lg : list log_entry),
        check_suffix ext_call file suffix msg (State d lg w)
        = (r, State d (lg ++ l) w').
Proof. intros. apply static_check_suffix. Qed.

(** X8.  Checking a list of files is checking a first part of it and then
    the rest: the call on [fs1 + fs2] returns [None] and leaves the state
    that the call on [fs1] followed by the call on [fs2] leaves. *)
Theorem check_suffix_concat :
  forall World ext_call (fs1 fs2 : list pathlike) (suffix : suffix_arg)
         (msg : value) (s : @state World),
    check_suffix ext_call (file_value (Files (fs1 ++ fs2))) (suffix_value suffix) msg s
    = (Ok VNone,
       snd (check_suffix ext_call (file_value (Files fs2)) (suffix_value suffix) msg
              (snd (check_suffix ext_call (file_value (Files fs1))
                      (suffix_value suffix) msg s)))).
Proof.
  intros. rewrite !check_suffix_run. simpl.
  by rewrite filter_app, map_app, app_assoc.
Qed.

(** X9.  [check_suffix] writes at most one record per file: the log grows
    by no more than the number of files, and by exactly that number when
    every file has a suffix that is not accepted. *)
Theorem check_suffix_at_most_one_per_file :
  forall World ext_call (file : file_arg) (suffix : suffix_arg) (msg : value)
         (s : @state World),
    let s' := snd (check_suffix ext_call (file_value file) (suffix_value suffix) msg s) in
    (length (log s') <= length (log s) + length (files_of file))%nat
    /\ (length (log s') = (length (log s) + length (files_of file))%nat
        <-> Forall (mismatch (accepted_of suffix)) (files_of file)).
Proof.
  intros World ext_call file sfx msg s s'. subst s'.
  rewrite check_suffix_run. simpl.
  rewrite length_app, length_map.
  pose proof (length_filter (mismatch (accepted_of sfx)) (files_of file)) as Hle.
  split; [lia|]. split.
  - intros Hl. apply Forall_forall. intros f Hf.
    destruct (decide (mismatch (accepted_of sfx) f)) as [Hm|Hm]; [done|].
    pose proof (length_filter_lt (mismatch (accepted_of sfx)) _ f Hf Hm). lia.
  - intros Hall. by rewrite filter_all.
Qed.

(** X10.  A list of files that holds something [Path] does not accept (a
    [None], a bool, a list, ...) makes [check_suffix] raise [TypeError] at
    that element: the files before it have been checked and their records
    stay in the log, the elements after it are not looked at. *)
Theorem check_suffix_stops_at_non_path :
  forall World ext_call (fs : list pathlike) (v : value) (rest : list value)
         (suffix : suffix_arg) (msg : value) (s : @state World),
    path_like v = false ->
    check_suffix ext_call (VList (map to_value fs ++ v :: rest))
      (suffix_value suffix) msg s
    = (Raised (TypeError ("expected str, bytes or os.PathLike object, not "
                          ++ type_name v)),
       State (self_dict s)
             (log s ++ map (suffix_error (accepted_of suffix))
                           (filter (mismatch (accepted_of suffix)) fs))
             (world s)).
Proof.
  intros World ext_call fs v rest suffix msg s Hv. unfold check_suffix.
  assert (Hs : (if is_str (suffix_value suffix) then mret [suffix_value suffix]
                else elements ext_call (suffix_value suffix)) s
               = (Ok (map VStr (accepted_of suffix)), s)) by by destruct suffix.
  unfold mbind at 1, M_bind at 1. rewrite Hs.
  unfold mbind at 1, M_bind at 1. simpl.
  unfold mbind at 1, M_bind at 1. by rewrite check_loop_stops.
Qed.

(** X11.  What an accepted suffix must look like to be of any use.  The
    suffix [check_suffix] compares is empty or a dot followed by at least one
    character, none of them a dot, a slash or an upper-case letter; so when
    no accepted suffix has that form (["pt"], [".PT"], [".tar.gz"], ...),
    every file that has a suffix is reported. *)
Theorem accepted_suffix_shape :
  forall World ext_call (f : pathlike) (suffix : suffix_arg) (msg : value)
         (s : @state World),
    (file_suffix f = "" \/ suffix_shaped (file_suffix f))
    /\ (path_suffix (text f) <> "" ->
        (forall a, a ∈ accepted_of suffix -> ~ suffix_shaped a) ->
        flags ext_call f suffix msg s).
Proof.
  intros. split; [apply file_suffix_shape|].
  intros Hsfx Hacc. apply flags_iff_mismatch. split.
  - unfold file_suffix. by rewrite lower_empty.
  - intros Hin. destruct (file_suffix_shape f) as [He|Hsh].
    + apply Hsfx. by apply lower_empty.
    + by apply (Hacc _ Hin).
Qed.

(** X12.  Whether a file is reported depends on the text of its path and on
    the set of accepted suffixes only: a str and a Path with the same text
    are treated alike, and the order and the repetitions of the accepted
    suffixes, and whether a single one is given as a str or in a tuple, make
    no difference. *)
Theorem check_suffix_accepted_as_set :
  forall World ext_call (f f' : pathlike) (suffix suffix' : suffix_arg)
         (msg : value) (s : @state World),
    text f = text f' ->
    (forall a, a ∈ accepted_of suffix <-> a ∈ accepted_of suffix') ->
    (flags ext_call f suffix msg s <-> flags ext_call f' suffix' msg s).
Proof.
  intros World ext_call f f' suffix suffix' msg s Ht Hacc.
  rewrite !flags_iff_mismatch. unfold mismatch, file_suffix.
  rewrite Ht. by rewrite Hacc.
Qed.

(** ** The further properties at concrete selectors *)

(** X2 at a list of two weights files and a method that answers ["onnx"]. *)
Lemma construct_stores_arguments_witness :
  init_body (fun _ : value => (mret (VStr "onnx") : M (list string) value))
    (VList [VPath "m.onnx"; VPath "other.pt"]) (VExt "cpu") (VBool true) fresh
  = (Ok VNone,
     constructed "onnx" (VList [VPath "m.onnx"; VPath "other.pt"])
       (VExt "cpu") (VBool true) [])
  /\ self_dict (constructed "onnx" (VList [VPath "m.onnx"; VPath "other.pt"])
                  (VExt "cpu") (VBool true) ([] : list string)) !! "weights"
     = Some (VList [VPath "m.onnx"; VPath "other.pt"])
  /\ self_dict (constructed "onnx" (VList [VPath "m.onnx"; VPath "other.pt"])
                  (VExt "cpu") (VBool true) ([] : list string)) !! "half"
     = Some (VBool true).
Proof.
  assert (H : init_body (fun _ : value => (mret (VStr "onnx") : M (list string) value))
                (VList [VPath "m.onnx"; VPath "other.pt"]) (VExt "cpu") (VBool true)
                fresh
              = (Ok VNone,
                 constructed "onnx" (VList [VPath "m.onnx"; VPath "other.pt"])
                   (VExt "cpu") (VBool true) [])) by reflexivity.
  split; [exact H|].
  destruct (construct_stores_arguments (list string) _ _ _ _ _ _ _ H)
    as (_ & Hw & _ & Hh & _).
  split; [exact Hw | exact Hh].
Defined.

(** X3 at a selector that already holds four attributes and a method that
    logs and exits: the record is in the log, the attributes are the old
    ones. *)
Lemma construct_failure_assigns_nothing_witness :
  (forall x, keeps (World:=list string) (identify_exits x))
  /\ init_body identify_exits (VPath "model.json") (VExt "gpu") (VBool true)
       unbound_selector
     = (Raised SystemExit,
        State (self_dict unbound_selector)
              [LogError [Lit "This model framework is not supported yet!"]] [])
  /\ self_dict (State (self_dict unbound_selector)
                      [LogError [Lit "This model framework is not supported yet!"]]
                      ([] : list string))
     = self_dict unbound_selector.
Proof.
  assert (Hk : forall x, keeps (World:=list string) (identify_exits x))
    by (intros x s; reflexivity).
  assert (H : init_body identify_exits (VPath "model.json") (VExt "gpu") (VBool true)
                unbound_selector
              = (Raised SystemExit,
                 State (self_dict unbound_selector)
                       [LogError [Lit "This model framework is not supported yet!"]]
                       [])) by reflexivity.
  split; [exact Hk|]. split; [exact H|].
  exact (construct_failure_assigns_nothing (list string) _ _ _ _ _ _ _ Hk H).
Defined.

(** X5 at a selector whose [backend] is [None]. *)
Lemma forward_backend_not_object_witness :
  (<["backend" := VNone]> (self_dict unbound_selector) : gmap string value)
    !! "backend" = Some VNone
  /\ is_object VNone = false
  /\ forward stub_call (VExt "batch")
       (State (<["backend" := VNone]> (self_dict unbound_selector)) [] [])
     = (Raised (AttributeError "NoneType" "preprocess_input"),
        State (<["backend" := VNone]> (self_dict unbound_selector)) [] []).
Proof.
  assert (Hb : self_dict (State (<["backend" := VNone]> (self_dict unbound_selector))
                            [] ([] : list string)) !! "backend" = Some VNone)
    by reflexivity.
  assert (Hv : is_object VNone = false) by reflexivity.
  split; [exact Hb|]. split; [exact Hv|].
  exact (forward_backend_not_object (list string) stub_call VNone (VExt "batch")
           _ Hb Hv).
Defined.

(** X10 at [check_suffix(['b.onnx', None, 'c.onnx'], '.pt')]: one record, for
    [b.onnx], then [TypeError]. *)
Lemma check_suffix_stops_at_non_path_witness :
  path_like VNone = false
  /\ check_suffix stub_call (VList [VStr "b.onnx"; VNone; VStr "c.onnx"])
       (VStr ".pt") (VStr "") fresh
     = (Raised (TypeError "expected str, bytes or os.PathLike object, not NoneType"),
        State ∅ [suffix_error [".pt"] (AsStr "b.onnx")] []).
Proof.
  assert (Hv : path_like VNone = false) by reflexivity.
  split; [exact Hv|].
  exact (check_suffix_stops_at_non_path (list string) stub_call [AsStr "b.onnx"]
           VNone [VStr "c.onnx"] (OneSuffix ".pt") (VStr "") fresh Hv).
Defined.

(** X11 at [archive.tar.gz] with the accepted suffixes [.tar.gz], [gz] and
    [.GZ]: none can match, the file is reported. *)
Lemma accepted_suffix_shape_witness :
  path_suffix "archive.tar.gz" <> ""
  /\ (forall a, a ∈ [".tar.gz"; "gz"; ".GZ"] -> ~ suffix_shaped a)
  /\ flags stub_call (AsStr "archive.tar.gz") (Suffixes [".tar.gz"; "gz"; ".GZ"])
       (VStr "") fresh.
Proof.
  assert (H1 : path_suffix (text (AsStr "archive.tar.gz")) <> "") by discriminate.
  assert (H2 : forall a, a ∈ accepted_of (Suffixes [".tar.gz"; "gz"; ".GZ"]) ->
                         ~ suffix_shaped a).
  { intros a Ha (rest & E & _ & Hd & _ & Hl). simpl in Ha.
    repeat (apply elem_of_cons in Ha as [->|Ha]);
      [ injection E as <-; discriminate Hd
      | discriminate E
      | discriminate Hl
      | by apply elem_of_nil in Ha ]. }
  split; [exact H1|]. split; [exact H2|].
  exact (proj2 (accepted_suffix_shape (list string) stub_call (AsStr "archive.tar.gz")
                  (Suffixes [".tar.gz"; "gz"; ".GZ"]) (VStr "") fresh) H1 H2).
Defined.

(** X12 at [a.onnx] as a str and as a Path, with the same accepted suffixes
    in two orders, one of them with a repetition. *)
Lemma check_suffix_accepted_as_set_witness :
  text (AsStr "a.onnx") = text (AsPath "a.onnx")
  /\ (forall a, a ∈ [".pt"; ".onnx"; ".pt"] <-> a ∈ [".onnx"; ".pt"])
  /\ (flags stub_call (AsStr "a.onnx") (Suffixes [".pt"; ".onnx"; ".pt"]) (VStr "") fresh
      <-> flags stub_call (AsPath "a.onnx") (Suffixes [".onnx"; ".pt"]) (VStr "") fresh).
Proof.
  assert (H1 : text (AsStr "a.onnx") = text (AsPath "a.onnx")) by reflexivity.
  assert (H2 : forall a, a ∈ accepted_of (Suffixes [".pt"; ".onnx"; ".pt"])
                         <-> a ∈ accepted_of (Suffixes [".onnx"; ".pt"])).
  { intros a. simpl. rewrite !elem_of_cons, elem_of_nil. tauto. }
  split; [exact H1|]. split; [exact H2|].
  exact (check_suffix_accepted_as_set (list string) stub_call _ _ _ _ (VStr "") fresh
           H1 H2).
Defined.
